(** * anycard: card-set scripts, shallow embedding and verified properties

    The repository is a set of independent Python scripts.  This file embeds
    the parts of four of them that carry logic:

    - [scripts/download_atlasnye_cardset.py]: the filename classifier
      [parse_filename] with its two process-wide counters;
    - [scripts/generate_back_and_jokers_for_digitaldesignlabs.py]: the
      bounding-box reader [get_viewbox] and the compositor
      [process_downloaded_svg];
    - [scripts/extract_htdebeer_cardset.py]: [save_isolated_card] and the
      extraction loop of [main];
    - [scripts/validate_svgs.py]: the validation driver.

    Conventions of the embedding.

    - A Python [str] is a Rocq [string]; the character classes of [re]
      ([\d], [\s], [\w]) and [str.lower]/[str.upper] are their ASCII parts.
    - A Python [int] counter is an [N]; a Python [float] is an exact rational
      [Q] (rounding, infinities and NaN are outside the model).
    - Module-level globals and the file system are explicit state; [print]
      appends a line to a log.
    - A raised exception that the script does not catch is a [Raise] outcome.
    - Library calls whose result the scripts only branch on ([float],
      [ET.fromstring], [ET.parse], [subprocess.run], the network) are Section
      variables: every theorem holds for any behaviour of the library. *)

From Stdlib Require Import String Ascii List Bool Arith NArith ZArith Lia.
From Stdlib Require Import DecimalString QArith Qminmax.
Import ListNotations.

Close Scope Q_scope.
Open Scope string_scope.

(** ** Python string primitives *)

Module PyStr.

Definition code (c : ascii) : nat := nat_of_ascii c.

Definition between (lo hi : nat) (c : ascii) : bool :=
  (lo <=? code c)%nat && (code c <=? hi)%nat.

Definition is_upper (c : ascii) : bool := between 65 90 c.
Definition is_lower (c : ascii) : bool := between 97 122 c.
Definition is_digit (c : ascii) : bool := between 48 57 c.

(** [\w]: letters, digits and the underscore. *)
Definition is_word (c : ascii) : bool :=
  is_upper c || is_lower c || is_digit c || (code c =? 95)%nat.

(** [\s] and [str.isspace]: TAB, LF, VT, FF, CR, FS, GS, RS, US, SPACE. *)
Definition is_space (c : ascii) : bool :=
  between 9 13 c || between 28 32 c.

Definition lower_char (c : ascii) : ascii :=
  if is_upper c then ascii_of_nat (code c + 32) else c.

Definition upper_char (c : ascii) : ascii :=
  if is_lower c then ascii_of_nat (code c - 32) else c.

Fixpoint map_chars (f : ascii -> ascii) (s : string) : string :=
  match s with
  | EmptyString => EmptyString
  | String c s' => String (f c) (map_chars f s')
  end.

(** [s.lower()] and [s.upper()]. *)
Definition lower : string -> string := map_chars lower_char.
Definition upper : string -> string := map_chars upper_char.

(** [s.startswith(p)], returning the remainder on success. *)
Fixpoint strip_prefix (p s : string) : option string :=
  match p, s with
  | EmptyString, _ => Some s
  | String _ _, EmptyString => None
  | String a p', String b s' =>
      if Ascii.eqb a b then strip_prefix p' s' else None
  end.

Definition startswith (p s : string) : bool :=
  match strip_prefix p s with Some _ => true | None => false end.

(** [needle in s]. *)
Fixpoint contains (needle s : string) : bool :=
  startswith needle s ||
  match s with
  | EmptyString => false
  | String _ s' => contains needle s'
  end.

(** [s.endswith(suf)]: some suffix of [s] is [suf]. *)
Fixpoint endswith (suf s : string) : bool :=
  String.eqb s suf ||
  match s with
  | EmptyString => false
  | String _ s' => endswith suf s'
  end.

(** [s.split(sep, 1)[1]]: the text after the first occurrence of [sep];
    [None] when [sep] does not occur (the list has one element and the
    index raises [IndexError]). *)
Fixpoint after_first (sep s : string) : option string :=
  match strip_prefix sep s with
  | Some rest => Some rest
  | None =>
      match s with
      | EmptyString => None
      | String _ s' => after_first sep s'
      end
  end.

Fixpoint lstrip (s : string) : string :=
  match s with
  | String c s' => if is_space c then lstrip s' else s
  | EmptyString => EmptyString
  end.

Fixpoint rev_acc (s acc : string) : string :=
  match s with
  | EmptyString => acc
  | String c s' => rev_acc s' (String c acc)
  end.

Definition rev (s : string) : string := rev_acc s EmptyString.

Definition rstrip (s : string) : string := rev (lstrip (rev s)).

(** [s.strip()]. *)
Definition strip (s : string) : string := rstrip (lstrip s).

(** [re.sub(r"[^...]", "", s)] for a character class given as a predicate:
    the characters of the class are kept. *)
Fixpoint keep (p : ascii -> bool) (s : string) : string :=
  match s with
  | EmptyString => EmptyString
  | String c s' => if p c then String c (keep p s') else keep p s'
  end.

(** [re.split(r"[...]+", s)] for a character class given as a predicate:
    the pieces between maximal runs of separator characters; a run at the
    start or at the end yields an empty piece there.  [cur] is the piece
    being read, reversed; [in_sep] says whether the previous character was
    a separator. *)
Fixpoint split_runs (sep : ascii -> bool) (s : string)
         (cur : string) (in_sep : bool) : list string :=
  match s with
  | EmptyString => [rev cur]
  | String c s' =>
      if sep c
      then if in_sep
           then split_runs sep s' cur true
           else rev cur :: split_runs sep s' EmptyString true
      else split_runs sep s' (String c cur) false
  end.

Definition re_split (sep : ascii -> bool) (s : string) : list string :=
  split_runs sep s EmptyString false.

Definition hex_value (c : ascii) : option nat :=
  if is_digit c then Some (code c - 48)
  else if between 65 70 c then Some (code c - 55)
  else if between 97 102 c then Some (code c - 87)
  else None.

(** [urllib.parse.unquote]: every [%XY] with two hexadecimal digits becomes
    the byte [XY]; a [%] not followed by two hexadecimal digits stays.
    (The library then decodes the bytes as UTF-8; the model is exact where
    the decoded bytes are ASCII.) *)
Fixpoint unquote (s : string) : string :=
  match s with
  | EmptyString => EmptyString
  | String c rest =>
      let literal := String c (unquote rest) in
      if Ascii.eqb c "%" then
        match rest with
        | String a (String b rest') =>
            match hex_value a, hex_value b with
            | Some x, Some y => String (ascii_of_nat (16 * x + y)) (unquote rest')
            | _, _ => literal
            end
        | _ => literal
        end
      else literal
  end.

(** [str(n)] for a non-negative [int]. *)
Definition str_of_N (n : N) : string :=
  NilEmpty.string_of_uint (N.to_uint n).

(** [os.path.join(a, b)] (POSIX). *)
Definition path_join (a b : string) : string :=
  if startswith "/" b then b
  else if String.eqb a "" || endswith "/" a then a ++ b
  else a ++ "/" ++ b.

End PyStr.

(** ** The subset of [re] patterns the scripts use *)

Module Re.
Import PyStr.

(** One alternative of a pattern [(a|b|...)]: a literal, or a literal
    followed by the word-boundary assertion [\b]. *)
Inductive alt : Type :=
| Lit (s : string)
| LitB (s : string).

Definition pattern : Type := list alt.

Definition word_opt (c : option ascii) : bool :=
  match c with Some c => is_word c | None => false end.

(** [\b] between two positions: exactly one side is a word character. *)
Definition word_boundary (prev next : option ascii) : bool :=
  xorb (word_opt prev) (word_opt next).

Fixpoint last_char (s : string) (prev : option ascii) : option ascii :=
  match s with
  | EmptyString => prev
  | String c s' => last_char s' (Some c)
  end.

Definition head_char (s : string) : option ascii :=
  match s with
  | EmptyString => None
  | String c _ => Some c
  end.

(** Does the alternative match at the start of [s], the character before
    [s] being [prev]? *)
Definition alt_match_here (a : alt) (prev : option ascii) (s : string) : bool :=
  match a with
  | Lit p => startswith p s
  | LitB p =>
      match strip_prefix p s with
      | Some rest => word_boundary (last_char p prev) (head_char rest)
      | None => false
      end
  end.

Fixpoint search_from (p : pattern) (prev : option ascii) (s : string) : bool :=
  existsb (fun a => alt_match_here a prev s) p ||
  match s with
  | EmptyString => false
  | String c s' => search_from p (Some c) s'
  end.

(** The truth value of [re.search(p, s)]. *)
Definition search (p : pattern) (s : string) : bool := search_from p None s.

End Re.

(** ** scripts/download_atlasnye_cardset.py *)

Module Atlasnye.
Import PyStr Re.

Definition SUITS_REGEX : list (string * pattern) :=
  [ ("H", [Lit "heart"; Lit "chervi"; Lit "worm"]);
    ("D", [Lit "diamond"; Lit "bubn"]);
    ("C", [Lit "club"; Lit "tref"]);
    ("S", [Lit "spade"; Lit "pik"]) ].

Definition RANKS_REGEX : list (string * pattern) :=
  [ ("A", [Lit "ace"; Lit "tuz"; LitB "1"]);
    ("K", [Lit "king"; Lit "korol"]);
    ("Q", [Lit "queen"; Lit "dama"]);
    ("J", [Lit "jack"; Lit "knave"; Lit "valet"]);
    ("T", [Lit "10"]);
    ("9", [Lit "9"]);
    ("8", [Lit "8"]);
    ("7", [Lit "7"]);
    ("6", [Lit "6"]);
    ("5", [Lit "5"]);
    ("4", [Lit "4"]);
    ("3", [Lit "3"]);
    ("2", [Lit "2"]) ].

(** The two module-level counters. *)
Record counters : Type := mkCounters {
  back_counter : N;
  joker_counter : N
}.

Definition initial : counters := mkCounters 0 0.

(** [name = urllib.parse.unquote(filename.lower())]. *)
Definition normalize (filename : string) : string :=
  unquote (lower filename).

Definition has_back_keyword (name : string) : bool :=
  contains "back" name || contains "rubashka" name || contains "dorso" name.

Definition has_joker_keyword (name : string) : bool :=
  contains "joker" name || contains "jolly" name.

(** The suit loop: the first table entry whose pattern is found. *)
Fixpoint detect_suit (table : list (string * pattern)) (name : string)
  : option string :=
  match table with
  | [] => None
  | (code, pat) :: table' =>
      if search pat name then Some code else detect_suit table' name
  end.

Definition numeric_codes : list string :=
  ["T"; "9"; "8"; "7"; "6"; "5"; "4"; "3"; "2"].

(** The rank loop, with its two branches (numeric codes and words), which
    run the same search. *)
Fixpoint detect_rank (table : list (string * pattern)) (name : string)
  : option string :=
  match table with
  | [] => None
  | (code, pat) :: table' =>
      if existsb (String.eqb code) numeric_codes then
        if search pat name then Some code else detect_rank table' name
      else
        if search pat name then Some code else detect_rank table' name
  end.

(** Truth value of an optional string: [None] and [""] are false. *)
Definition truthy (o : option string) : bool :=
  match o with
  | Some s => negb (String.eqb s "")
  | None => false
  end.

Definition text (o : option string) : string :=
  match o with Some s => s | None => "None" end.

(** [parse_filename(filename)] on the counters [st]: the returned name
    ([None] for Python's [None]) and the counters afterwards. *)
Definition parse_filename (filename : string) (st : counters)
  : option string * counters :=
  let name := normalize filename in
  if has_back_keyword name then
    if (back_counter st <? 2)%N then
      let st' := mkCounters (back_counter st + 1) (joker_counter st) in
      (Some (str_of_N (back_counter st') ++ "B.svg"), st')
    else (None, st)
  else if has_joker_keyword name then
    let st' := mkCounters (back_counter st) (joker_counter st + 1) in
    (Some (str_of_N (joker_counter st') ++ "J.svg"), st')
  else
    let found_suit := detect_suit SUITS_REGEX name in
    let found_rank := detect_rank RANKS_REGEX name in
    if truthy found_suit && truthy found_rank
    then (Some (text found_rank ++ text found_suit ++ ".svg"), st)
    else (None, st).

(** A run: [parse_filename] called on each filename in turn, as the loop of
    [main] does; the results in call order and the final counters. *)
Fixpoint run (st : counters) (filenames : list string)
  : list (option string) * counters :=
  match filenames with
  | [] => ([], st)
  | f :: rest =>
      let '(r, st1) := parse_filename f st in
      let '(rs, st2) := run st1 rest in
      (r :: rs, st2)
  end.

End Atlasnye.

(** ** Outcomes of a call, and [xml.etree.ElementTree] elements *)

Module Py.

(** The exceptions the scripts can raise. *)
Inductive exn : Type :=
| IndexError
| ValueError
| ZeroDivisionError
| ParseError (msg : string)
| SystemExit (status : Z).

Inductive outcome (A : Type) : Type :=
| Ok (a : A)
| Raise (e : exn).

Arguments Ok {A} a.
Arguments Raise {A} e.

(** [str(z)] for an [int]. *)
Definition str_of_Z (z : Z) : string :=
  NilEmpty.string_of_int (Z.to_int z).

(** Strict comparison of rationals, as a boolean. *)
Definition Qlt_bool (x y : Q) : bool :=
  (Qnum x * QDen y <? Qnum y * QDen x)%Z.

(** [min(a, b)] and [max(a, b)]: the first argument is kept unless the
    second is strictly smaller (larger). *)
Definition py_min (a b : Q) : Q := if Qlt_bool b a then b else a.
Definition py_max (a b : Q) : Q := if Qlt_bool a b then b else a.

(** Computations that read and write a world [W] and may raise. *)
Definition M (W A : Type) : Type := W -> outcome A * W.

Definition ret {W A : Type} (a : A) : M W A := fun w => (Ok a, w).

Definition raise {W A : Type} (e : exn) : M W A := fun w => (Raise e, w).

Definition bind {W A B : Type} (c : M W A) (k : A -> M W B) : M W B :=
  fun w =>
    match c w with
    | (Ok a, w') => k a w'
    | (Raise e, w') => (Raise e, w')
    end.

Notation "x <- c ;; k" := (bind c (fun x => k))
  (at level 61, c at next level, right associativity).
Notation "c ;;; k" := (bind c (fun _ => k))
  (at level 61, right associativity).

Definition lift {W A : Type} (o : outcome A) : M W A := fun w => (o, w).

(** A [for] loop whose body may raise: the first exception ends the loop. *)
Fixpoint for_each {W A : Type} (body : A -> M W unit) (l : list A) : M W unit :=
  match l with
  | [] => ret tt
  | a :: l' => body a ;;; for_each body l'
  end.

End Py.

Module ET.

#[local] Set Warnings "-register-all".

Inductive Element : Type :=
| Elem (tag : string) (attrib : list (string * string))
       (text : option string) (children : list Element).

Definition tag (e : Element) : string :=
  match e with Elem t _ _ _ => t end.

Definition attrib (e : Element) : list (string * string) :=
  match e with Elem _ a _ _ => a end.

Definition children (e : Element) : list Element :=
  match e with Elem _ _ _ c => c end.

Fixpoint lookup (key : string) (d : list (string * string)) : option string :=
  match d with
  | [] => None
  | (k, v) :: d' => if String.eqb k key then Some v else lookup key d'
  end.

(** [e.get(key)] and [e.get(key, default)]. *)
Definition get (e : Element) (key : string) : option string :=
  lookup key (attrib e).

Definition get_default (e : Element) (key default : string) : string :=
  match get e key with Some v => v | None => default end.

(** [d.pop(key, None)] on the attribute dictionary. *)
Definition pop (key : string) (d : list (string * string))
  : list (string * string) :=
  filter (fun kv => negb (String.eqb (fst kv) key)) d.

(** [parent.append(child)] and [parent.insert(0, child)]. *)
Definition append (parent child : Element) : Element :=
  match parent with
  | Elem t a x cs => Elem t a x (cs ++ [child])%list
  end.

Definition insert0 (parent child : Element) : Element :=
  match parent with
  | Elem t a x cs => Elem t a x (child :: cs)
  end.

(** [e.find(tag)]: the first direct child with that tag. *)
Definition find (t : string) (e : Element) : option Element :=
  List.find (fun c => String.eqb (tag c) t) (children e).

(** [e.iter()]: the element and its descendants, in document order. *)
Fixpoint iter (e : Element) : list Element :=
  match e with
  | Elem _ _ _ cs =>
      e :: (fix iter_all (l : list Element) : list Element :=
              match l with
              | [] => []
              | c :: l' => (iter c ++ iter_all l')%list
              end) cs
  end.

End ET.

(** ** scripts/generate_back_and_jokers_for_digitaldesignlabs.py *)

Module DDL.
Import PyStr Py ET.

Definition OUTPUT_DIR : string := "digitaldesignlabs".
Definition TARGET_WIDTH : Z := 225.
Definition TARGET_HEIGHT : Z := 314.
Definition BORDER_RADIUS : Q := 1125 # 100.
Definition STROKE_WIDTH : Z := 2.
Definition JOKER_VERTICAL_PADDING : Q := 16 # 1.

Definition NS_SVG : string := "http://www.w3.org/2000/svg".

Definition svg_tag (local_name : string) : string :=
  "{" ++ NS_SVG ++ "}" ++ local_name.

Definition svg_el (local_name : string) (attrib : list (string * string))
  : Element :=
  Elem (svg_tag local_name) attrib None [].

Definition URLS : list (string * list (string * string)) :=
  [ ("xl",
     [ ("1B.svg", "https://upload.wikimedia.org/wikipedia/commons/d/d4/Card_back_01.svg");
       ("1J.svg", "https://upload.wikimedia.org/wikipedia/commons/8/82/Joker_red_02.svg");
       ("2J.svg", "https://upload.wikimedia.org/wikipedia/commons/d/d0/Joker_black_02.svg") ]);
    ("sm",
     [ ("1B.svg", "https://upload.wikimedia.org/wikipedia/commons/d/d4/Card_back_01.svg") ]) ].

(** The file system and the terminal. *)
Record world : Type := mkWorld {
  dirs : list string;
  files : list (string * Element);
  log : list string
}.

Definition M : Type -> Type := Py.M world.

Definition print (line : string) : M unit :=
  fun w => (Ok tt, mkWorld (dirs w) (files w) (log w ++ [line])%list).

(** [if not os.path.exists(d): os.makedirs(d)]. *)
Definition ensure_dir (d : string) : M unit :=
  fun w =>
    if existsb (String.eqb d) (dirs w) then (Ok tt, w)
    else (Ok tt, mkWorld (d :: dirs w) (files w) (log w)).

(** [ET.ElementTree(root).write(path, ...)]. *)
Definition write_tree (path : string) (root : Element) : M unit :=
  fun w => (Ok tt, mkWorld (dirs w) ((path, root) :: files w) (log w)).

Definition inner_rect : Q * Q * Z * Z :=
  let inset := (inject_Z STROKE_WIDTH / 2)%Q in
  (inset, inset, (TARGET_WIDTH - STROKE_WIDTH)%Z, (TARGET_HEIGHT - STROKE_WIDTH)%Z).

Definition is_back_filename (filename : string) : bool :=
  endswith "B.SVG" (upper filename).

Definition is_joker_filename (filename : string) : bool :=
  endswith "J.SVG" (upper filename).

(** The numbers [process_downloaded_svg] computes between reading the
    bounding box and building the [transform] attribute, under their names
    in the source. *)
Record placement : Type := mkPlacement {
  dst_x : Q; dst_y : Q; dst_w : Q; dst_h : Q;
  scale_w : Q; scale_h : Q;
  scale : Q;
  scale_x : Q; scale_y : Q;
  tx : Q; ty : Q
}.

(** The destination rectangle: the interior, with the vertical padding for
    jokers. *)
Definition dst_rect (filename : string) : Q * Q * Q * Q :=
  let '(x, y, w, h) := inner_rect in
  if is_joker_filename filename
  then (x, (y + JOKER_VERTICAL_PADDING)%Q, inject_Z w,
        (inject_Z h - JOKER_VERTICAL_PADDING * 2)%Q)
  else (x, y, inject_Z w, inject_Z h).

(** [a / b] on floats. *)
Definition div (a b : Q) : outcome Q :=
  if Qeq_bool b 0 then Raise ZeroDivisionError else Ok (a / b)%Q.

Definition fit (filename mode : string) (box : Q * Q * Q * Q)
  : outcome placement :=
  let '(src_min_x, src_min_y, src_w, src_h) := box in
  let '(dx, dy, dw, dh) := dst_rect filename in
  match div dw src_w with
  | Raise e => Raise e
  | Ok sw =>
      match div dh src_h with
      | Raise e => Raise e
      | Ok sh =>
          let s := if String.eqb mode "cover" then py_max sw sh else py_min sw sh in
          let '(sx, sy) :=
            if is_back_filename filename then ((s * (1035 # 1000))%Q, (s * (102 # 100))%Q)
            else if is_joker_filename filename then ((s * (101 # 100))%Q, (s * (101 # 100))%Q)
            else (s, s) in
          Ok (mkPlacement dx dy dw dh sw sh s sx sy
                (dx + (dw - src_w * sx) / 2 - src_min_x * sx)%Q
                (dy + (dh - src_h * sy) / 2 - src_min_y * sy)%Q)
      end
  end.

Section Runtime.

(** [float(s)]: [None] for [ValueError]. *)
Variable py_float : string -> option Q.

(** [str(x)] for a float [x]. *)
Variable str_float : Q -> string.

(** [ET.fromstring(content)]: the root, or the message of [ET.ParseError]. *)
Variable fromstring : string -> Element + string.

(** The body behind a URL, or the message of the exception
    [safe_urlopen]/[read]/[decode] raised. *)
Variable urlopen : string -> string + string.

Definition float (s : string) : outcome Q :=
  match py_float s with
  | Some q => Ok q
  | None => Raise ValueError
  end.

Definition parse_unit (val : string) : Q :=
  if String.eqb val "" then 0%Q
  else
    let clean := keep (fun c => is_digit c || Ascii.eqb c ".") val in
    match float clean with
    | Ok q => q
    | Raise _ => 0%Q
    end.

(** The pieces of a [viewBox] value: [re.split(r"[,\s]+", vb.strip())]. *)
Definition viewbox_parts (vb : string) : list string :=
  re_split (fun c => Ascii.eqb c "," || is_space c) (strip vb).

Definition get_viewbox (root : Element) : outcome (Q * Q * Q * Q) :=
  let from_size :=
    let w := parse_unit (get_default root "width" "") in
    let h := parse_unit (get_default root "height" "") in
    if Qlt_bool 0 w && Qlt_bool 0 h then Ok (0%Q, 0%Q, w, h)
    else Ok (0%Q, 0%Q, (200 # 1)%Q, (300 # 1)%Q) in
  match get root "viewBox" with
  | None => from_size
  | Some vb =>
      if String.eqb vb "" then from_size
      else
        match viewbox_parts vb with
        | [p0; p1; p2; p3] =>
            match float p0 with
            | Raise e => Raise e
            | Ok a =>
            match float p1 with
            | Raise e => Raise e
            | Ok b =>
            match float p2 with
            | Raise e => Raise e
            | Ok c =>
            match float p3 with
            | Raise e => Raise e
            | Ok d => Ok (a, b, c, d)
            end end end end
        | _ => from_size
        end
  end.

Definition create_container_svg : Element :=
  svg_el "svg"
    [ ("width", str_of_Z TARGET_WIDTH);
      ("height", str_of_Z TARGET_HEIGHT);
      ("viewBox", "0 0 " ++ str_of_Z TARGET_WIDTH ++ " " ++ str_of_Z TARGET_HEIGHT) ].

Definition ensure_defs (root : Element) : Element * Element :=
  match List.find (fun c => endswith "defs" (tag c)) (children root) with
  | Some d => (root, d)
  | None => let d := svg_el "defs" [] in (insert0 root d, d)
  end.

Definition add_background (root : Element) : Element :=
  let '(x, y, w, h) := inner_rect in
  insert0 root
    (svg_el "rect"
       [ ("x", str_float x); ("y", str_float y);
         ("width", str_of_Z w); ("height", str_of_Z h);
         ("rx", str_float BORDER_RADIUS); ("ry", str_float BORDER_RADIUS);
         ("fill", "#fefefe") ]).

Definition clip_rect : Element :=
  let '(x, y, w, h) := inner_rect in
  svg_el "rect"
    [ ("x", str_float x); ("y", str_float y);
      ("width", str_of_Z w); ("height", str_of_Z h);
      ("rx", str_float BORDER_RADIUS); ("ry", str_float BORDER_RADIUS) ].

Definition is_clip (clip_id : string) (cp : Element) : bool :=
  endswith "clipPath" (tag cp) &&
  match get cp "id" with
  | Some i => String.eqb i clip_id
  | None => false
  end.

(** Write a changed [defs] back into its parent: [defs] is the first child
    whose tag ends in "defs", and the source mutates it in place. *)
Fixpoint put_defs (d : Element) (cs : list Element) : list Element :=
  match cs with
  | [] => []
  | c :: cs' => if endswith "defs" (tag c) then d :: cs' else c :: put_defs d cs'
  end.

Definition add_clip_path (root : Element) (clip_id : string)
  : Element * string :=
  let '(root1, defs) := ensure_defs root in
  if existsb (is_clip clip_id) (children defs) then (root1, clip_id)
  else
    let cp := Elem (svg_tag "clipPath") [("id", clip_id)] None [clip_rect] in
    match root1 with
    | Elem t a x cs => (Elem t a x (put_defs (append defs cp) cs), clip_id)
    end.

Definition add_border (root : Element) : Element :=
  append root
    (svg_el "rect"
       [ ("x", "1.0"); ("y", "1.0"); ("width", "223.0"); ("height", "312.0");
         ("rx", "11.25"); ("ry", "11.25"); ("fill", "none");
         ("stroke", "black"); ("stroke-width", "2") ]).

(** The first statement of the [try] block: drop an XML declaration.
    [content.split('?>', 1)[1]] raises [IndexError] when there is no "?>". *)
Definition strip_declaration (content : string) : outcome string :=
  if startswith "<?xml" (strip content) then
    match after_first "?>" content with
    | Some rest => Ok rest
    | None => Raise IndexError
    end
  else Ok content.

Definition transform_of (p : placement) : string :=
  if Qeq_bool (scale_x p) (scale_y p) then
    "translate(" ++ str_float (tx p) ++ " " ++ str_float (ty p)
      ++ ") scale(" ++ str_float (scale_x p) ++ ")"
  else
    "translate(" ++ str_float (tx p) ++ " " ++ str_float (ty p)
      ++ ") scale(" ++ str_float (scale_x p) ++ " " ++ str_float (scale_y p) ++ ")".

(** The document written for a source root and its placement. *)
Definition composite (src_root : Element) (p : placement) : Element :=
  let new_root := add_background create_container_svg in
  let '(new_root, clip_id) := add_clip_path new_root "card-clip" in
  let clipped := svg_el "g" [("clip-path", "url(#" ++ clip_id ++ ")")] in
  let wrapper := svg_el "g" [("transform", transform_of p)] in
  let wrapper := fold_left append (children src_root) wrapper in
  let clipped := append clipped wrapper in
  add_border (append new_root clipped).

(** [process_downloaded_svg(content, filename, target_dir, mode)].  Only
    [ET.ParseError] is caught by the [try]; any other exception leaves the
    function. *)
Definition process_downloaded_svg
           (content filename target_dir mode : string) : M unit :=
  content1 <- lift (strip_declaration content) ;;
  match fromstring content1 with
  | inr e => print ("XML Error in " ++ filename ++ ": " ++ e)
  | inl src_root =>
      box <- lift (get_viewbox src_root) ;;
      p <- lift (fit filename mode box) ;;
      let new_root := composite src_root p in
      ensure_dir target_dir ;;;
      let out_path := path_join target_dir filename in
      write_tree out_path new_root ;;;
      print (" -> Saved " ++ out_path)
  end.

Definition joker_letters : list string := ["J"; "O"; "K"; "E"; "R"].

Definition generate_simple_joker (color filename target_dir : string) : M unit :=
  let root := add_background create_container_svg in
  let '(root, clip_id) := add_clip_path root "card-clip" in
  let clipped := svg_el "g" [("clip-path", "url(#" ++ clip_id ++ ")")] in
  let fill := if String.eqb color "red" then "#d40000" else "#000000" in
  let font_size := 56%Z in
  let letter_spacing := 56%Z in
  let x_scale := (118 # 100)%Q in
  let y_offset := (6 # 1)%Q in
  let '(_, inner_y, _, inner_h) := inner_rect in
  let center_y := (inner_y + inject_Z inner_h / 2)%Q in
  let start_y :=
    (center_y
     - inject_Z ((Z.of_nat (List.length joker_letters) - 1) * letter_spacing) / 2
     + y_offset)%Q in
  let cx := (inject_Z TARGET_WIDTH / 2)%Q in
  let stretched :=
    svg_el "g"
      [("transform",
        "translate(" ++ str_float cx ++ " 0) scale(" ++ str_float x_scale
          ++ " 1) translate(" ++ str_float (- cx)%Q ++ " 0)")] in
  let letter (i : nat) (char : string) : Element :=
    Elem (svg_tag "text")
      [ ("x", str_float (inject_Z TARGET_WIDTH / 2)%Q);
        ("y", str_float (start_y + inject_Z (Z.of_nat i * letter_spacing))%Q);
        ("font-family", "Times New Roman, serif");
        ("font-weight", "bold");
        ("font-size", str_of_Z font_size);
        ("fill", fill);
        ("stroke", fill);
        ("stroke-width", "1.2");
        ("paint-order", "stroke fill");
        ("text-anchor", "middle");
        ("dominant-baseline", "middle") ]
      (Some char) [] in
  let stretched :=
    fold_left (fun acc ic => append acc (letter (fst ic) (snd ic)))
      (combine (seq 0 (List.length joker_letters)) joker_letters) stretched in
  let root := add_border (append root (append clipped stretched)) in
  ensure_dir target_dir ;;;
  let out_path := path_join target_dir filename in
  write_tree out_path root ;;;
  print (" -> Generated " ++ out_path).

Definition download_svg_content (url : string) : M (option string) :=
  print ("Downloading " ++ url ++ "...") ;;;
  match urlopen url with
  | inl body => ret (Some body)
  | inr e =>
      print ("Error downloading " ++ url ++ ": " ++ e) ;;;
      ret None
  end.

(** The body of the inner loop of [main] for one [(filename, url)]. *)
Definition process_item (target_dir : string) (item : string * string)
  : M unit :=
  let '(filename, url) := item in
  content <- download_svg_content url ;;
  match content with
  | None => ret tt
  | Some c =>
      if String.eqb c "" then ret tt
      else
        let mode := if is_joker_filename filename then "cover" else "contain" in
        process_downloaded_svg c filename target_dir mode
  end.

Definition process_folder (entry : string * list (string * string)) : M unit :=
  let '(folder_key, file_map) := entry in
  for_each (process_item (path_join OUTPUT_DIR folder_key)) file_map.

Definition main : M unit :=
  print "Processing DigitalDesignLabs Extras..." ;;;
  for_each process_folder URLS ;;;
  let sm_dir := path_join OUTPUT_DIR "sm" in
  generate_simple_joker "red" "1J.svg" sm_dir ;;;
  generate_simple_joker "black" "2J.svg" sm_dir ;;;
  print "Done.".

End Runtime.

End DDL.

(** ** scripts/extract_htdebeer_cardset.py *)

Module Htdebeer.
Import PyStr Py ET.

Definition URL : string :=
  "https://raw.githubusercontent.com/htdebeer/SVG-cards/master/svg-cards.svg".

Definition SUITS : list (string * string) :=
  [ ("D", "diamond"); ("H", "heart"); ("S", "spade"); ("C", "club") ].

Definition RANKS : list (string * string) :=
  [ ("A", "1"); ("2", "2"); ("3", "3"); ("4", "4"); ("5", "5"); ("6", "6");
    ("7", "7"); ("8", "8"); ("9", "9"); ("T", "10"); ("J", "jack");
    ("Q", "queen"); ("K", "king") ].

Definition SPECIALS : list (string * string) :=
  [ ("1B", "back"); ("1J", "joker_red"); ("2J", "joker_black") ].

(** [d[key] = value] on a dictionary kept in insertion order. *)
Fixpoint dict_set (key value : string) (d : list (string * string))
  : list (string * string) :=
  match d with
  | [] => [(key, value)]
  | (k, v) :: d' =>
      if String.eqb k key then (k, value) :: d'
      else (k, v) :: dict_set key value d'
  end.

(** Step 4 of [main]: the target list. *)
Definition targets : list (string * string) :=
  let standard :=
    fold_left
      (fun d rank =>
         fold_left
           (fun d suit =>
              dict_set (fst rank ++ fst suit ++ ".svg") (snd suit ++ "_" ++ snd rank) d)
           SUITS d)
      RANKS [] in
  fold_left (fun d sp => dict_set (fst sp ++ ".svg") (snd sp) d) SPECIALS standard.

(** What the script sees of the file system, and the terminal. *)
Record world : Type := mkWorld {
  output_dir_exists : bool;
  input_file : option string;
  files : list (string * Element);
  log : list string
}.

Definition M : Type -> Type := Py.M world.

Definition print (line : string) : M unit :=
  fun w => (Ok tt, mkWorld (output_dir_exists w) (input_file w) (files w)
                           (log w ++ [line])%list).

Definition write_tree (path : string) (root : Element) : M unit :=
  fun w => (Ok tt, mkWorld (output_dir_exists w) (input_file w)
                           ((path, root) :: files w) (log w)).

Definition write_input (body : string) : M unit :=
  fun w => (Ok tt, mkWorld (output_dir_exists w) (Some body) (files w) (log w)).

Definition mkdir_output : M unit :=
  fun w => (Ok tt, mkWorld true (input_file w) (files w) (log w)).

Section Runtime.

(** [Path.cwd()]. *)
Variable BASE_DIR : string.

(** The body behind a URL, or the message of the exception raised. *)
Variable urlopen : string -> string + string.

(** [ET.parse(file).getroot()] on the file's content, or the message of
    [ET.ParseError]. *)
Variable parse : string -> Element + string.

Definition INPUT_FILE_name : string := "svg-cards.svg".
Definition OUTPUT_DIR : string := path_join BASE_DIR "htdebeer".

Definition has_id (target_id : string) (child : Element) : bool :=
  match lookup "id" (attrib child) with
  | Some i => String.eqb i target_id
  | None => false
  end.

Definition save_isolated_card
           (original_root : Element) (filename target_id : string) : M unit :=
  match find ("{http://www.w3.org/2000/svg}defs") original_root with
  | None => print "  [ERROR] No <defs> section found in SVG."
  | Some defs =>
      let defs_copy := defs in
      let target_copy :=
        match List.find (has_id target_id) (iter defs_copy) with
        | Some (Elem t a x cs) => Some (Elem t (pop "display" a) x cs)
        | None => None
        end in
      let new_root := Elem (tag original_root) (attrib original_root) None [] in
      let new_root := append new_root defs_copy in
      match target_copy with
      | Some target =>
          let new_root := append new_root target in
          write_tree (path_join OUTPUT_DIR filename) new_root ;;;
          print ("  Saved " ++ filename)
      | None =>
          print ("  [ERROR] ID '" ++ target_id ++ "' not found in SVG.")
      end
  end.

(** Steps 2 to 5 of [main], once the input file is there. *)
Definition extract (content : string) : M unit :=
  mkdir_output ;;;
  print "Parsing SVG..." ;;;
  match parse content with
  | inr msg => raise (ParseError msg)
  | inl root =>
      print ("Extracting " ++ str_of_N (N.of_nat (List.length targets))
               ++ " cards to '" ++ OUTPUT_DIR ++ "'...") ;;;
      for_each (fun t => save_isolated_card root (fst t) (snd t)) targets ;;;
      print (String (ascii_of_nat 10) "Done!")
  end.

Definition main : M unit :=
  fun w =>
    if output_dir_exists w then
      (print ("Output directory already exists: " ++ OUTPUT_DIR) ;;;
       print "Delete or move it before re-running." ;;;
       raise (SystemExit 1)) w
    else
      match input_file w with
      | Some content => extract content w
      | None =>
          (print ("Downloading " ++ INPUT_FILE_name ++ "...") ;;;
           match urlopen URL with
           | inl body => write_input body ;;; extract body
           | inr exc => print ("Error downloading: " ++ exc)
           end) w
      end.

End Runtime.

End Htdebeer.

(** ** scripts/validate_svgs.py *)

Module ValidateSvgs.
Import PyStr.

Inductive line : Type :=
| Stdout (s : string)
| Stderr (s : string).

(** What [subprocess.run(..., timeout=10)] does: complete, time out, or
    raise something else. *)
Inductive run_result : Type :=
| Completed (returncode : Z) (stdout stderr : string)
| TimeoutExpired
| OtherException.

(** The parsed command line. *)
Record args : Type := mkArgs {
  directory : string;
  verbose : bool;
  svgcheck : bool
}.

Section Runtime.

(** [Path(d).resolve()], [Path.is_dir], [list(dir.rglob("*.svg"))]. *)
Variable resolve : string -> string.
Variable is_dir : string -> bool.
Variable rglob_svg : string -> list string.

Variable subprocess_run : list string -> run_result.

Definition nonempty (s : string) : bool := negb (String.eqb s "").

Definition run_command (cmd_list : list string) (file_path : string)
           (verbose : bool) : bool * list line :=
  match subprocess_run cmd_list with
  | Completed rc out err =>
      ((rc =? 0)%Z,
       if verbose then
         ((if nonempty out then [Stdout (strip out)] else [])
            ++ (if nonempty err then [Stderr (strip err)] else []))%list
       else [])
  | TimeoutExpired =>
      (false, [Stdout ("  ⚠  " ++ file_path ++ ": Timeout")])
  | OtherException => (false, [])
  end.

Definition verdict (tool : string) (pass : bool) : line :=
  Stdout ("  " ++ (if pass then "✓" else "✗") ++ " " ++ tool ++ ": "
            ++ (if pass then "PASS" else "FAIL")).

(** One iteration of the loop: the new value of [failed] and what is
    printed. *)
Definition check_file (verbose use_svgcheck : bool) (failed : bool)
           (svg_file : string) : bool * list line :=
  let '(xmllint_pass, out1) :=
    run_command ["xmllint"; "--noout"; svg_file] svg_file verbose in
  let failed1 := if negb xmllint_pass then true else failed in
  let lines1 :=
    ([Stdout ("=== Checking " ++ svg_file ++ " ===")] ++ out1
       ++ [verdict "xmllint" xmllint_pass])%list in
  if use_svgcheck then
    let svgcheck_cmd :=
      (["svgcheck"] ++ (if negb verbose then ["--quiet"] else [])
         ++ [svg_file])%list in
    let '(svgcheck_pass, out2) := run_command svgcheck_cmd svg_file verbose in
    let failed2 := if negb svgcheck_pass then true else failed1 in
    (failed2, (lines1 ++ out2 ++ [verdict "svgcheck" svgcheck_pass; Stdout ""])%list)
  else (failed1, (lines1 ++ [Stdout ""])%list).

Fixpoint check_all (verbose use_svgcheck : bool) (failed : bool)
         (svg_files : list string) : bool * list line :=
  match svg_files with
  | [] => (failed, [])
  | f :: rest =>
      let '(failed1, out1) := check_file verbose use_svgcheck failed f in
      let '(failed2, out2) := check_all verbose use_svgcheck failed1 rest in
      (failed2, (out1 ++ out2)%list)
  end.

(** The script after argument parsing: what it prints and the status it
    passes to [sys.exit]. *)
Definition script (a : args) : list line * Z :=
  let dir := resolve (directory a) in
  if negb (is_dir dir) then
    ([Stdout ("Error: '" ++ dir ++ "' is not a directory")], 1%Z)
  else
    let head := [Stdout ("Validating SVGs recursively in: " ++ dir)] in
    let svg_files := rglob_svg dir in
    match svg_files with
    | [] => ((head ++ [Stdout "No SVG files found."])%list, 0%Z)
    | _ =>
        let '(failed, out) := check_all (verbose a) (svgcheck a) false svg_files in
        if negb failed
        then ((head ++ out ++ [Stdout "All SVGs passed validation!"])%list, 0%Z)
        else ((head ++ out ++ [Stdout "Some SVGs failed - check above for details."])%list, 1%Z)
    end.

End Runtime.

End ValidateSvgs.

(** ** Vocabulary of the properties *)

Module Props.
Import PyStr Re Py ET Atlasnye.

(** The first entry of a keyword table, in table order, whose pattern is
    found in [name]. *)
Definition first_match (table : list (string * pattern)) (name : string)
  : option string :=
  match List.find (fun e => search (snd e) name) table with
  | Some e => Some (fst e)
  | None => None
  end.

(** Some entry of the table is found in [name]. *)
Definition any_match (table : list (string * pattern)) (name : string) : bool :=
  existsb (fun e => search (snd e) name) table.

(** The card name built from the first matching rank and suit, if both
    exist. *)
Definition card_name (name : string) : option string :=
  match first_match RANKS_REGEX name, first_match SUITS_REGEX name with
  | Some rank, Some suit => Some (rank ++ suit ++ ".svg")
  | _, _ => None
  end.

(** The filename carries a back keyword; a joker keyword; a joker keyword and
    no back keyword. *)
Definition is_back_file (filename : string) : bool :=
  has_back_keyword (normalize filename).

Definition has_joker (filename : string) : bool :=
  has_joker_keyword (normalize filename).

Definition is_joker_file (filename : string) : bool :=
  negb (is_back_file filename) && has_joker filename.

(** The results of a run for the filenames selected by [p], in call order. *)
Definition results_where (p : string -> bool) (filenames : list string)
           (results : list (option string)) : list (option string) :=
  map snd (filter (fun fr => p (fst fr)) (combine filenames results)).

(** A result that is a back identifier: a name ending in "B.svg". *)
Definition is_back_id (r : option string) : bool :=
  match r with
  | Some s => endswith "B.svg" s
  | None => false
  end.

(** The joker name with number [n]. *)
Definition joker_name (n : N) : option string :=
  Some (str_of_N n ++ "J.svg").

(** The back names still free when the back counter is [b]. *)
Definition free_slots (b : N) : list (option string) :=
  if (b =? 0)%N then [Some "1B.svg"; Some "2B.svg"]
  else if (b =? 1)%N then [Some "2B.svg"]
  else [].

(** The root carries a [viewBox] attribute that splits into four fields. *)
Definition has_four_field_viewbox (root : Element) : bool :=
  match get root "viewBox" with
  | Some vb => (List.length (DDL.viewbox_parts vb) =? 4)%nat
  | None => false
  end.

Definition fallback_box : Q * Q * Q * Q := (0, 0, 200 # 1, 300 # 1)%Q.

(** The compositor's world after it has written [doc] as
    [target_dir/filename]: the directory exists, the file is there, and the
    line "Saved" is printed. *)
Definition saved (target_dir filename : string) (doc : Element) (w : DDL.world)
  : DDL.world :=
  DDL.mkWorld
    (if existsb (String.eqb target_dir) (DDL.dirs w) then DDL.dirs w
     else target_dir :: DDL.dirs w)
    ((path_join target_dir filename, doc) :: DDL.files w)
    (DDL.log w ++ [(" -> Saved " ++ path_join target_dir filename)%string])%list.

(** The compositor's world after one more printed line and nothing else. *)
Definition logged (line : string) (w : DDL.world) : DDL.world :=
  DDL.mkWorld (DDL.dirs w) (DDL.files w) (DDL.log w ++ [line])%list.

Definition no_defs_message : string :=
  "  [ERROR] No <defs> section found in SVG.".

(** Every validator run on the file returns status 0. *)
Definition file_passes (subprocess_run : list string -> ValidateSvgs.run_result)
           (verbose use_svgcheck : bool) (svg_file : string) : bool :=
  fst (ValidateSvgs.run_command subprocess_run
         ["xmllint"; "--noout"; svg_file] svg_file verbose)
  && (negb use_svgcheck
      || fst (ValidateSvgs.run_command subprocess_run
                (["svgcheck"] ++ (if negb verbose then ["--quiet"] else [])
                   ++ [svg_file])%list
                svg_file verbose)).

End Props.

(** ** Concrete inputs for the examples *)

Module Examples.
Import PyStr ET.

Fixpoint digits (s : string) (acc : N) : option N :=
  match s with
  | EmptyString => Some acc
  | String c s' =>
      if is_digit c then digits s' (10 * acc + N.of_nat (code c - 48))%N
      else None
  end.

Fixpoint split_dot (s : string) : string * option string :=
  match s with
  | EmptyString => (EmptyString, None)
  | String c s' =>
      if Ascii.eqb c "." then (EmptyString, Some s')
      else let '(a, b) := split_dot s' in (String c a, b)
  end.

(** [float] on unsigned decimal literals ("12", "12.5", ".5", "5."), exact;
    [None] on anything else. *)
Definition decimal_float (s : string) : option Q :=
  let '(i, f) := split_dot s in
  let f := match f with Some f => f | None => EmptyString end in
  if String.eqb (i ++ f) "" then None
  else
    match digits i 0, digits f 0 with
    | Some a, Some b =>
        let scale := (10 ^ Z.of_nat (String.length f))%Z in
        Some (Qmake (Z.of_N a * scale + Z.of_N b) (Z.to_pos scale))
    | _, _ => None
    end.

(** A root without [viewBox] whose width is zero. *)
Definition bare_svg : Element :=
  Elem "{http://www.w3.org/2000/svg}svg" [("width", "0"); ("height", "12cm")]
       None [].

(** A sprite sheet whose root has no [defs] child. *)
Definition sheet_without_defs : Element :=
  Elem "{http://www.w3.org/2000/svg}svg" [("viewBox", "0 0 100 100")] None
    [Elem "{http://www.w3.org/2000/svg}g" [("id", "heart_king")] None []].

End Examples.

(** * Verified properties *)

Import PyStr Re Py ET Atlasnye DDL Props Examples.

(** ** The model at work *)

Example parse_king_of_hearts :
  parse_filename "Atlas_deck_King_of_Hearts.svg" initial
  = (Some "KH.svg", initial).
Proof. reflexivity. Qed.

Example normalize_percent_escape :
  normalize "Queen%20of%20Spades.svg" = "queen of spades.svg".
Proof. reflexivity. Qed.

Example parse_ace_digit :
  parse_filename "Atlas_deck_1 of clubs.svg" initial = (Some "AC.svg", initial).
Proof. reflexivity. Qed.

Example parse_one_before_underscore :
  parse_filename "1_of_clubs.svg" initial = (None, initial).
Proof. reflexivity. Qed.

Example run_mixed :
  run initial ["Back.svg"; "Joker_red.svg"; "rubashka.svg"; "dorso.svg"; "Jolly.svg"]
  = ([Some "1B.svg"; Some "1J.svg"; Some "2B.svg"; None; Some "2J.svg"],
     mkCounters 2 2).
Proof. reflexivity. Qed.

Example viewbox_parts_leading_comma :
  viewbox_parts " ,0 0, 10   " = [""; "0"; "0"; "10"].
Proof. reflexivity. Qed.

Example get_viewbox_from_size :
  get_viewbox decimal_float
    (Elem "svg" [("width", "10.5mm"); ("height", "20")] None [])
  = Ok (0, 0, 105 # 10, 20 # 1)%Q.
Proof. reflexivity. Qed.

Example targets_count : List.length Htdebeer.targets = 55.
Proof. reflexivity. Qed.

(** ** The filename classifier *)

Lemma detect_suit_first_match table name :
  detect_suit table name = first_match table name.
Proof.
  unfold first_match.
  induction table as [|[code pat] table IH]; simpl; auto.
  destruct (search pat name); auto.
Qed.

Lemma detect_rank_first_match table name :
  detect_rank table name = first_match table name.
Proof.
  unfold first_match.
  induction table as [|[code pat] table IH]; cbn -[existsb search]; auto.
  destruct (existsb (String.eqb code) numeric_codes);
    destruct (search pat name); auto.
Qed.

Lemma first_match_in table name c :
  first_match table name = Some c -> In c (map fst table).
Proof.
  unfold first_match.
  induction table as [|[code pat] table IH]; simpl; try discriminate.
  destruct (search pat name); simpl.
  - intros [= <-]. now left.
  - intros H. right. now apply IH.
Qed.

Lemma first_match_None table name :
  first_match table name = None <-> any_match table name = false.
Proof.
  unfold first_match, any_match.
  induction table as [|[code pat] table IH]; simpl.
  - tauto.
  - destruct (search pat name); simpl; [split; discriminate | exact IH].
Qed.

Lemma first_match_split table name c :
  first_match table name = Some c <->
  exists before pat after,
    table = (before ++ (c, pat) :: after)%list /\
    search pat name = true /\
    any_match before name = false.
Proof.
  unfold first_match, any_match.
  induction table as [|[code pat] table IH]; simpl.
  - split; [discriminate|]. intros (b & p & a & H & _). now destruct b.
  - destruct (search pat name) eqn:E; simpl.
    + split.
      * intros [= <-]. exists [], pat, table. auto.
      * intros (b & p & a & H & Hp & Hb). destruct b as [|[c0 p0] b]; simpl in *.
        -- now inversion H.
        -- inversion H; subst. rewrite E in Hb. discriminate.
    + rewrite IH. split.
      * intros (b & p & a & H & Hp & Hb). exists ((code, pat) :: b), p, a.
        simpl. rewrite E, Hb, H. auto.
      * intros (b & p & a & H & Hp & Hb). destruct b as [|[c0 p0] b]; simpl in *.
        -- inversion H; subst. congruence.
        -- inversion H; subst. rewrite E in Hb. simpl in Hb. exists b, p, a. auto.
Qed.

Lemma suit_code_cases name s :
  first_match SUITS_REGEX name = Some s ->
  s = "H" \/ s = "D" \/ s = "C" \/ s = "S".
Proof.
  intros H. apply first_match_in in H. simpl in H. intuition auto.
Qed.

Lemma rank_code_truthy name r :
  first_match RANKS_REGEX name = Some r -> truthy (Some r) = true.
Proof.
  intros H. apply first_match_in in H. simpl in H.
  repeat (destruct H as [<- | H]; [reflexivity|]). contradiction.
Qed.

Lemma suit_code_truthy name s :
  first_match SUITS_REGEX name = Some s -> truthy (Some s) = true.
Proof.
  intros H. apply suit_code_cases in H. intuition (subst; reflexivity).
Qed.

Lemma parse_filename_card filename st :
  is_back_file filename = false ->
  has_joker filename = false ->
  parse_filename filename st = (card_name (normalize filename), st).
Proof.
  unfold is_back_file, has_joker, parse_filename, card_name. intros -> ->.
  rewrite detect_suit_first_match, detect_rank_first_match.
  destruct (first_match SUITS_REGEX _) as [s|] eqn:Es;
    destruct (first_match RANKS_REGEX _) as [r|] eqn:Er; simpl; auto.
  - apply suit_code_truthy in Es. apply rank_code_truthy in Er.
    simpl in Es, Er. rewrite Es, Er. reflexivity.
  - destruct (negb (s =? "")); reflexivity.
Qed.

Lemma existsb_orb {A : Type} (f g : A -> bool) l :
  existsb (fun x => f x || g x) l = existsb f l || existsb g l.
Proof.
  induction l as [|a l IH]; simpl; auto.
  rewrite IH. destruct (f a), (g a), (existsb f l); reflexivity.
Qed.

Lemma literals_match_here (words : list string) prev (s : string) :
  existsb (fun a => alt_match_here a prev s) (map Lit words)
  = existsb (fun w => startswith w s) words.
Proof.
  induction words as [|w words IH]; simpl; auto. now rewrite IH.
Qed.

(** A pattern of plain literals is found exactly when one of the literals
    occurs in the string. *)
Lemma search_literals (words : list string) (s : string) :
  search (map Lit words) s = existsb (fun w => contains w s) words.
Proof.
  unfold search. generalize (@None ascii).
  induction s as [|c s IH]; intros prev; cbn [search_from contains];
    rewrite literals_match_here.
  - rewrite orb_false_r. induction words as [|w words IHw]; simpl; auto.
    now rewrite IHw, orb_false_r.
  - now rewrite IH, existsb_orb.
Qed.

(** A suit is found exactly when the name contains one of the suit
    keywords. *)
Lemma suit_found_iff_keyword name :
  any_match SUITS_REGEX name
  = existsb (fun w => contains w name)
      ["heart"; "chervi"; "worm"; "diamond"; "bubn"; "club"; "tref"; "spade"; "pik"].
Proof.
  unfold any_match, SUITS_REGEX. cbn [existsb snd].
  change [Lit "heart"; Lit "chervi"; Lit "worm"]
    with (map Lit ["heart"; "chervi"; "worm"]).
  change [Lit "diamond"; Lit "bubn"] with (map Lit ["diamond"; "bubn"]).
  change [Lit "club"; Lit "tref"] with (map Lit ["club"; "tref"]).
  change [Lit "spade"; Lit "pik"] with (map Lit ["spade"; "pik"]).
  rewrite !search_literals. cbn [existsb].
  rewrite !orb_false_r, !orb_assoc. reflexivity.
Qed.

Lemma parse_filename_back filename st :
  is_back_file filename = true ->
  parse_filename filename st =
    if (back_counter st <? 2)%N
    then (Some (str_of_N (back_counter st + 1) ++ "B.svg"),
          mkCounters (back_counter st + 1) (joker_counter st))
    else (None, st).
Proof.
  unfold is_back_file, parse_filename. intros ->. reflexivity.
Qed.

Lemma parse_filename_joker filename st :
  is_joker_file filename = true ->
  parse_filename filename st =
    (joker_name (joker_counter st + 1),
     mkCounters (back_counter st) (joker_counter st + 1)).
Proof.
  unfold is_joker_file, is_back_file, has_joker, parse_filename.
  intros H. apply andb_true_iff in H as [Hb Hj].
  apply negb_true_iff in Hb. rewrite Hb, Hj. reflexivity.
Qed.

Lemma eqb_length_neq s t :
  String.length s <> String.length t -> String.eqb s t = false.
Proof.
  intros H. apply String.eqb_neq. intros ->. now apply H.
Qed.

Lemma endswith_short suf s :
  String.length s < String.length suf -> endswith suf s = false.
Proof.
  induction s as [|c s IH]; cbn [endswith String.length]; intros H.
  - rewrite eqb_length_neq; simpl; auto; lia.
  - rewrite eqb_length_neq, IH; simpl; auto; lia.
Qed.

Lemma length_app a b :
  String.length (a ++ b) = String.length a + String.length b.
Proof. induction a as [|c a IH]; simpl; auto. Qed.

Lemma endswith_app suf a b :
  String.length b = String.length suf ->
  endswith suf (a ++ b) = String.eqb b suf.
Proof.
  intros H. induction a as [|c a IH]; cbn [String.append endswith].
  - destruct b as [|c b]; cbn [endswith].
    + now rewrite orb_false_r.
    + rewrite endswith_short, orb_false_r; auto. simpl in H. lia.
  - rewrite IH. rewrite eqb_length_neq; auto.
    simpl. rewrite length_app. lia.
Qed.

Lemma card_name_not_back_id name : is_back_id (card_name name) = false.
Proof.
  unfold card_name.
  destruct (first_match RANKS_REGEX name) as [r|]; auto.
  destruct (first_match SUITS_REGEX name) as [s|] eqn:Es; auto.
  apply suit_code_cases in Es. simpl.
  destruct Es as [-> | [-> | [-> | ->]]]; now rewrite endswith_app.
Qed.

Lemma joker_name_not_back_id n : is_back_id (joker_name n) = false.
Proof. simpl. now rewrite endswith_app. Qed.

Lemma joker_or_card filename st :
  is_back_file filename = false ->
  (is_joker_file filename = true /\
   parse_filename filename st =
     (joker_name (joker_counter st + 1),
      mkCounters (back_counter st) (joker_counter st + 1)))
  \/ (is_joker_file filename = false /\
      parse_filename filename st = (card_name (normalize filename), st)).
Proof.
  intros Hb. destruct (has_joker filename) eqn:Hj.
  - left. assert (H : is_joker_file filename = true)
      by (unfold is_joker_file; now rewrite Hb, Hj).
    split; auto. now apply parse_filename_joker.
  - right. split; [unfold is_joker_file; now rewrite Hb, Hj|].
    now apply parse_filename_card.
Qed.

Lemma not_back_file_step filename st :
  is_back_file filename = false ->
  back_counter (snd (parse_filename filename st)) = back_counter st /\
  is_back_id (fst (parse_filename filename st)) = false.
Proof.
  intros Hb. destruct (joker_or_card filename st Hb) as [[_ ->] | [_ ->]]; simpl.
  - split; auto. apply joker_name_not_back_id.
  - split; auto. apply card_name_not_back_id.
Qed.

Lemma not_joker_file_step filename st :
  is_joker_file filename = false ->
  joker_counter (snd (parse_filename filename st)) = joker_counter st.
Proof.
  intros Hj. destruct (is_back_file filename) eqn:Hb.
  - rewrite parse_filename_back by auto.
    destruct (back_counter st <? 2)%N; reflexivity.
  - destruct (joker_or_card filename st Hb) as [[H _] | [_ ->]]; [congruence | reflexivity].
Qed.

Lemma run_cons f fs st :
  run st (f :: fs) =
    (fst (parse_filename f st) :: fst (run (snd (parse_filename f st)) fs),
     snd (run (snd (parse_filename f st)) fs)).
Proof.
  simpl. destruct (parse_filename f st) as [r st1].
  simpl. destruct (run st1 fs) as [rs st2]. reflexivity.
Qed.

Lemma run_length fs : forall st, List.length (fst (run st fs)) = List.length fs.
Proof.
  induction fs as [|f fs IH]; intros st; [reflexivity|].
  rewrite run_cons. simpl. now rewrite IH.
Qed.

Lemma results_where_cons p f fs r rs :
  results_where p (f :: fs) (r :: rs) =
    if p f then r :: results_where p fs rs else results_where p fs rs.
Proof. unfold results_where. simpl. now destruct (p f). Qed.

Lemma parse_back_0 f j :
  is_back_file f = true ->
  parse_filename f (mkCounters 0 j) = (Some "1B.svg", mkCounters 1 j).
Proof. intros H. now rewrite parse_filename_back. Qed.

Lemma parse_back_1 f j :
  is_back_file f = true ->
  parse_filename f (mkCounters 1 j) = (Some "2B.svg", mkCounters 2 j).
Proof. intros H. now rewrite parse_filename_back. Qed.

Lemma parse_back_2 f j :
  is_back_file f = true ->
  parse_filename f (mkCounters 2 j) = (None, mkCounters 2 j).
Proof. intros H. now rewrite parse_filename_back. Qed.

Lemma run_backs fs : forall st,
  (back_counter st <= 2)%N ->
  let k := List.length (filter is_back_file fs) in
  results_where is_back_file fs (fst (run st fs))
    = (firstn k (free_slots (back_counter st))
       ++ repeat None (k - List.length (free_slots (back_counter st))))%list
  /\ back_counter (snd (run st fs)) = N.min (back_counter st + N.of_nat k) 2
  /\ List.length (filter is_back_id (fst (run st fs))) + N.to_nat (back_counter st) <= 2.
Proof.
  induction fs as [|f fs IH]; intros st Hb.
  - simpl. repeat split; lia.
  - rewrite run_cons. cbn [fst snd filter]. rewrite results_where_cons.
    destruct (is_back_file f) eqn:Hf.
    + destruct st as [b j]. cbn [back_counter joker_counter] in *.
      assert (Hcase : b = 0%N \/ b = 1%N \/ b = 2%N) by lia.
      cbn [List.length].
      destruct Hcase as [-> | [-> | ->]];
        [ rewrite parse_back_0 by assumption
        | rewrite parse_back_1 by assumption
        | rewrite parse_back_2 by assumption ];
        cbn [fst snd];
        match goal with
        | |- context [run ?s fs] =>
            destruct (IH s) as (IH1 & IH2 & IH3); [cbn [back_counter]; lia|];
            cbn [back_counter] in IH1, IH2, IH3
        end;
        rewrite IH1, IH2;
        set (k := List.length (filter is_back_file fs)) in *; clearbody k;
        (split; [destruct k as [|[|k]]; reflexivity|]);
        (split; [lia|]);
        change (filter is_back_id (?r :: ?rs))
          with (if is_back_id r then r :: filter is_back_id rs else filter is_back_id rs);
        cbv beta iota; simpl is_back_id; cbn [List.length]; lia.
    + destruct (not_back_file_step f st Hf) as [Hc Hid].
      destruct (IH (snd (parse_filename f st))) as (IH1 & IH2 & IH3);
        [rewrite Hc; assumption|].
      rewrite Hc in IH1, IH2, IH3. simpl filter. rewrite Hid.
      repeat split; assumption.
Qed.

Lemma run_jokers fs : forall st,
  let k := List.length (filter is_joker_file fs) in
  results_where is_joker_file fs (fst (run st fs))
    = map (fun n => joker_name (joker_counter st + N.of_nat n)) (seq 1 k)
  /\ joker_counter (snd (run st fs)) = (joker_counter st + N.of_nat k)%N.
Proof.
  induction fs as [|f fs IH]; intros st.
  - simpl. split; [reflexivity | lia].
  - rewrite run_cons. cbn [fst snd filter]. rewrite results_where_cons.
    destruct (is_joker_file f) eqn:Hf.
    + rewrite parse_filename_joker by assumption. cbn [fst snd List.length].
      destruct (IH (mkCounters (back_counter st) (joker_counter st + 1)))
        as [IH1 IH2].
      cbn [joker_counter] in IH1, IH2. rewrite IH1, IH2.
      split; [|lia].
      cbn [seq map]. f_equal.
      rewrite <- (seq_shift _ 1), map_map. apply map_ext.
      intros n. f_equal. lia.
    + pose proof (not_joker_file_step f st Hf) as Hc.
      destruct (IH (snd (parse_filename f st))) as [IH1 IH2].
      rewrite Hc in IH1, IH2. split; assumption.
Qed.

(** C1: the claim is that a name containing "100" is never given rank "T".
    The rank pattern for "T" is the plain literal "10", which is found inside
    "100": the filename below contains "100", no back or joker keyword and
    no word rank (nor a "1" at a word boundary), and is classified as the ten
    of hearts. *)
Theorem C1_hundred_is_classified_as_ten :
  contains "100" (normalize "100_of_hearts.svg") = true /\
  has_back_keyword (normalize "100_of_hearts.svg") = false /\
  has_joker_keyword (normalize "100_of_hearts.svg") = false /\
  any_match (firstn 4 RANKS_REGEX) (normalize "100_of_hearts.svg") = false /\
  parse_filename "100_of_hearts.svg" initial = (Some "TH.svg", initial).
Proof. repeat split. Qed.

(** C2, as stated, fails: a filename that matches a suit and no rank is not
    always rejected.  "hearts_back.svg" matches the suit "H" and no rank, and
    the back check, which comes first, names it "1B.svg". *)
Lemma C2_counterexample :
  ~ (forall filename st,
       let name := normalize filename in
       (any_match SUITS_REGEX name = true /\ any_match RANKS_REGEX name = false)
       \/ (any_match SUITS_REGEX name = false /\ any_match RANKS_REGEX name = true) ->
       fst (parse_filename filename st) = None).
Proof.
  intros H.
  assert (E : fst (parse_filename "hearts_back.svg" initial) = None)
    by (apply H; left; split; reflexivity).
  discriminate E.
Qed.

(** C2, amended: for a filename whose normalized name carries no back and no
    joker keyword, [parse_filename] returns "{rank}{suit}.svg" for the first
    rank entry and the first suit entry, in table order, whose patterns are
    found in the name; when no rank entry or no suit entry is found it
    returns [None].  The counters are left as they were. *)
Theorem C2_card_name_from_first_matches :
  forall filename st,
    has_back_keyword (normalize filename) = false ->
    has_joker_keyword (normalize filename) = false ->
    parse_filename filename st
    = (match first_match RANKS_REGEX (normalize filename),
             first_match SUITS_REGEX (normalize filename) with
       | Some rank, Some suit => Some (rank ++ suit ++ ".svg")
       | _, _ => None
       end, st).
Proof.
  intros filename st Hb Hj. now apply parse_filename_card.
Qed.

(** C2, witness: the king of hearts. *)
Lemma C2_witness :
  parse_filename "Atlas_deck_King_of_Hearts.svg" initial = (Some "KH.svg", initial).
Proof.
  apply (C2_card_name_from_first_matches "Atlas_deck_King_of_Hearts.svg" initial);
    reflexivity.
Defined.

(** C5: in a run from the initial counters, the results for the filenames
    with a back keyword are, in call order, "1B.svg", "2B.svg" and then
    [None] for every later one; at most two results of the whole run are back
    identifiers; the back counter ends at [min k 2] for [k] back filenames and
    stays there whatever is classified afterwards. *)
Theorem C5_at_most_two_backs :
  forall filenames more,
    let results := fst (run initial filenames) in
    let final := snd (run initial filenames) in
    let k := List.length (filter is_back_file filenames) in
    results_where is_back_file filenames results
      = (firstn k [Some "1B.svg"; Some "2B.svg"] ++ repeat None (k - 2))%list
    /\ List.length (filter is_back_id results) <= 2
    /\ back_counter final = N.min (N.of_nat k) 2
    /\ back_counter (snd (run final more))
       = N.min (N.of_nat (k + List.length (filter is_back_file more))) 2.
Proof.
  intros filenames more results final k.
  destruct (run_backs filenames initial) as (H1 & H2 & H3); [cbn; lia|].
  cbn [back_counter initial] in H1, H2, H3.
  fold results in H1, H3. fold final in H2. fold k in H1, H2.
  split; [exact H1|]. split; [lia|]. split; [rewrite H2; lia|].
  destruct (run_backs more final) as (_ & H4 & _); [rewrite H2; lia|].
  rewrite H4, H2. lia.
Qed.

(** C6, as stated, fails: the first filename with a joker keyword is not
    always named "1J.svg".  "joker_back.svg" also carries a back keyword, and
    the back check comes first. *)
Lemma C6_counterexample :
  ~ (forall filenames,
       results_where has_joker filenames (fst (run initial filenames))
       = map (fun n => joker_name (N.of_nat n))
             (seq 1 (List.length (filter has_joker filenames)))).
Proof.
  intros H. specialize (H ["joker_back.svg"]). discriminate H.
Qed.

(** C6, amended: in a run from the initial counters, the n-th filename that
    carries a joker keyword and no back keyword is named "{n}J.svg", for every
    n; the joker counter ends at the number of such filenames, and no call
    ever decreases it. *)
Theorem C6_jokers_numbered_in_order :
  forall filenames,
    let k := List.length (filter is_joker_file filenames) in
    results_where is_joker_file filenames (fst (run initial filenames))
      = map (fun n => joker_name (N.of_nat n)) (seq 1 k)
    /\ joker_counter (snd (run initial filenames)) = N.of_nat k
    /\ forall filename st,
         (joker_counter st <= joker_counter (snd (parse_filename filename st)))%N.
Proof.
  intros filenames k.
  destruct (run_jokers filenames initial) as [H1 H2].
  cbn [joker_counter initial] in H1, H2. fold k in H1, H2.
  split; [exact H1|]. split; [rewrite H2; lia|].
  intros filename st. destruct (is_joker_file filename) eqn:E.
  - rewrite parse_filename_joker by assumption. cbn. lia.
  - rewrite not_joker_file_step by assumption. lia.
Qed.

(** ** The compositor: scale and placement *)

Lemma Qlt_bool_iff x y : Qlt_bool x y = true <-> (x < y)%Q.
Proof. unfold Qlt_bool, Qlt. apply Z.ltb_lt. Qed.

Lemma Qlt_bool_false x y : Qlt_bool x y = false <-> (y <= x)%Q.
Proof. unfold Qlt_bool, Qle. apply Z.ltb_ge. Qed.

Lemma py_min_is_Qmin a b : (py_min a b == Qmin a b)%Q.
Proof.
  unfold py_min. destruct (Qlt_bool b a) eqn:E.
  - apply Qlt_bool_iff in E. symmetry. apply Q.min_r. now apply Qlt_le_weak.
  - apply Qlt_bool_false in E. symmetry. now apply Q.min_l.
Qed.

Lemma py_max_is_Qmax a b : (py_max a b == Qmax a b)%Q.
Proof.
  unfold py_max. destruct (Qlt_bool a b) eqn:E.
  - apply Qlt_bool_iff in E. symmetry. apply Q.max_r. now apply Qlt_le_weak.
  - apply Qlt_bool_false in E. symmetry. now apply Q.max_l.
Qed.

Lemma py_min_le_py_max a b : (py_min a b <= py_max a b)%Q.
Proof.
  rewrite py_min_is_Qmin, py_max_is_Qmax.
  apply Qle_trans with a; [apply Q.le_min_l | apply Q.le_max_l].
Qed.

Lemma div_positive a b : (0 < b)%Q -> div a b = Ok (a / b)%Q.
Proof.
  intros H. unfold div. destruct (Qeq_bool b 0) eqn:E; auto.
  apply Qeq_bool_iff in E. rewrite E in H. now apply Qlt_irrefl in H.
Qed.

(** The destination rectangle is the template interior (1, 1, 223, 312);
    for a joker it starts 16 lower and is 32 shorter. *)
Lemma dst_rect_value filename :
  exists x y w h,
    dst_rect filename = (x, y, w, h) /\
    (x == 1)%Q /\
    (y == if is_joker_filename filename then 17 else 1)%Q /\
    (w == 223)%Q /\
    (h == if is_joker_filename filename then 280 else 312)%Q.
Proof.
  unfold dst_rect, inner_rect.
  destruct (is_joker_filename filename);
    do 4 eexists; (split; [reflexivity|]); repeat split; vm_compute; reflexivity.
Qed.

(** C3: for a source box of positive width and height, the compositor
    computes [scale_w = dst_w / src_w] and [scale_h = dst_h / src_h], where
    [dst] is the interior rectangle it fits into ([dst_rect]: the template
    interior, 223 wide and 312 high, 280 high for a joker, which gets a
    vertical padding); [scale] is their minimum in "contain" mode and their
    maximum in "cover" mode, so the "cover" scale is at least the "contain"
    scale, and so are the per-axis scales applied. *)
Theorem C3_cover_scale_at_least_contain :
  forall filename min_x min_y src_w src_h,
    (0 < src_w)%Q -> (0 < src_h)%Q ->
    exists contain cover,
      fit filename "contain" (min_x, min_y, src_w, src_h) = Ok contain /\
      fit filename "cover" (min_x, min_y, src_w, src_h) = Ok cover /\
      dst_rect filename = (dst_x contain, dst_y contain, dst_w contain, dst_h contain) /\
      dst_rect filename = (dst_x cover, dst_y cover, dst_w cover, dst_h cover) /\
      (dst_w contain == 223)%Q /\
      (dst_h contain == if is_joker_filename filename then 280 else 312)%Q /\
      scale_w contain = (dst_w contain / src_w)%Q /\
      scale_h contain = (dst_h contain / src_h)%Q /\
      scale_w cover = (dst_w cover / src_w)%Q /\
      scale_h cover = (dst_h cover / src_h)%Q /\
      (scale contain == Qmin (scale_w contain) (scale_h contain))%Q /\
      (scale cover == Qmax (scale_w cover) (scale_h cover))%Q /\
      (scale contain <= scale cover)%Q /\
      (scale_x contain <= scale_x cover)%Q /\
      (scale_y contain <= scale_y cover)%Q.
Proof.
  intros filename min_x min_y src_w src_h Hw Hh.
  destruct (dst_rect_value filename) as (dx & dy & dw & dh & E & _ & _ & Hdw & Hdh).
  unfold fit. rewrite E.
  rewrite !div_positive by assumption.
  change ("contain" =? "cover") with false.
  change ("cover" =? "cover") with true. cbv iota.
  pose proof (py_min_le_py_max (dw / src_w) (dh / src_h)) as Hle.
  revert Hdh.
  destruct (is_back_filename filename); [|destruct (is_joker_filename filename)];
    intros Hdh;
    (eexists; eexists; split; [reflexivity|]; split; [reflexivity|]);
    cbn [dst_x dst_y dst_w dst_h scale_w scale_h scale scale_x scale_y];
    repeat (split; [first [ reflexivity | exact Hdw | exact Hdh
                          | apply py_min_is_Qmin | apply py_max_is_Qmax
                          | exact Hle ]|]);
    first [ exact Hle
          | split; (apply Qmult_le_compat_r; [exact Hle | unfold Qle; simpl; lia]) ].
Qed.

(** C3, witness: a joker on a 200 x 400 source. *)
Lemma C3_witness :
  exists contain cover,
    fit "1J.svg" "contain" (0, 0, 200 # 1, 400 # 1)%Q = Ok contain /\
    fit "1J.svg" "cover" (0, 0, 200 # 1, 400 # 1)%Q = Ok cover /\
    (scale contain <= scale cover)%Q.
Proof.
  destruct (C3_cover_scale_at_least_contain "1J.svg" 0 0 (200 # 1) (400 # 1)
              eq_refl eq_refl)
    as (contain & cover & H1 & H2 & _ & _ & _ & _ & _ & _ & _ & _ & _ & _ & H3 & _).
  exists contain, cover. auto.
Defined.

(** C4: whenever the placement is computed, [tx] and [ty] are given by the
    centring formula, and the scaled source box has equal margins on the left
    and right, and on the top and bottom, of the interior rectangle. *)
Theorem C4_translation_centres_source :
  forall filename mode min_x min_y src_w src_h p,
    fit filename mode (min_x, min_y, src_w, src_h) = Ok p ->
    (tx p == dst_x p + (dst_w p - src_w * scale_x p) / 2 - min_x * scale_x p)%Q /\
    (ty p == dst_y p + (dst_h p - src_h * scale_y p) / 2 - min_y * scale_y p)%Q /\
    (min_x * scale_x p + tx p - dst_x p
       == dst_x p + dst_w p - ((min_x + src_w) * scale_x p + tx p))%Q /\
    (min_y * scale_y p + ty p - dst_y p
       == dst_y p + dst_h p - ((min_y + src_h) * scale_y p + ty p))%Q.
Proof.
  intros filename mode min_x min_y src_w src_h p. unfold fit.
  destruct (dst_rect filename) as [[[dx dy] dw] dh].
  destruct (div dw src_w) as [sw|]; [|discriminate].
  destruct (div dh src_h) as [sh|]; [|discriminate].
  set (s := if mode =? "cover" then py_max sw sh else py_min sw sh).
  destruct (if is_back_filename filename then _ else _) as [sx sy].
  intros [= <-]. cbn [dst_x dst_y dst_w dst_h scale_x scale_y tx ty].
  repeat split; try reflexivity; field.
Qed.

(** C4, witness: a back on a source whose origin is (10, 20). *)
Lemma C4_witness :
  exists p,
    fit "1B.svg" "contain" (10 # 1, 20 # 1, 200 # 1, 300 # 1)%Q = Ok p /\
    ((10 # 1) * scale_x p + tx p - dst_x p
       == dst_x p + dst_w p - (((10 # 1) + (200 # 1)) * scale_x p + tx p))%Q.
Proof.
  eexists. split; [reflexivity|].
  apply (C4_translation_centres_source "1B.svg" "contain"
           (10 # 1) (20 # 1) (200 # 1) (300 # 1))%Q.
  reflexivity.
Defined.

(** ** The compositor: bounding box and parse failures *)

Section CompositorFacts.

Variable py_float : string -> option Q.
Variable str_float : Q -> string.
Variable fromstring : string -> Element + string.
Variable urlopen : string -> string + string.

Lemma get_viewbox_fallback root :
  has_four_field_viewbox root = false ->
  ~ ((0 < parse_unit py_float (get_default root "width" ""))%Q /\
     (0 < parse_unit py_float (get_default root "height" ""))%Q) ->
  get_viewbox py_float root = Ok fallback_box.
Proof.
  intros Hvb Hsize. unfold get_viewbox, has_four_field_viewbox in *.
  assert (Hfrom :
    (if Qlt_bool 0 (parse_unit py_float (get_default root "width" ""))
        && Qlt_bool 0 (parse_unit py_float (get_default root "height" ""))
     then Ok (0%Q, 0%Q, parse_unit py_float (get_default root "width" ""),
              parse_unit py_float (get_default root "height" ""))
     else Ok (0%Q, 0%Q, (200 # 1)%Q, (300 # 1)%Q)) = Ok fallback_box).
  { destruct (Qlt_bool 0 _) eqn:Ew; [|reflexivity].
    destruct (Qlt_bool 0 (parse_unit py_float (get_default root "height" ""))) eqn:Eh;
      [|reflexivity].
    exfalso. apply Hsize. split; now apply Qlt_bool_iff. }
  destruct (get root "viewBox") as [vb|]; [|exact Hfrom].
  destruct (vb =? ""); [exact Hfrom|].
  destruct (viewbox_parts vb) as [|p0 [|p1 [|p2 [|p3 [|p4 rest]]]]];
    try exact Hfrom.
  discriminate Hvb.
Qed.

Lemma fit_fallback filename mode :
  exists p, fit filename mode fallback_box = Ok p.
Proof.
  unfold fit, fallback_box. destruct (dst_rect filename) as [[[dx dy] dw] dh].
  rewrite !div_positive by reflexivity.
  destruct (if is_back_filename filename then _ else _) as [sx sy].
  eexists. reflexivity.
Qed.

Lemma process_downloaded_svg_writes content c1 root box p filename target_dir mode w :
  strip_declaration content = Ok c1 ->
  fromstring c1 = inl root ->
  get_viewbox py_float root = Ok box ->
  fit filename mode box = Ok p ->
  process_downloaded_svg py_float str_float fromstring content filename target_dir mode w
  = (Ok tt, saved target_dir filename (composite str_float root p) w).
Proof.
  intros Hs Hp Hb Hf. unfold process_downloaded_svg, bind, lift.
  rewrite Hs, Hp, Hb, Hf. unfold ensure_dir, write_tree, print, saved. simpl.
  destruct (existsb (String.eqb target_dir) (DDL.dirs w)); reflexivity.
Qed.

Lemma process_downloaded_svg_parse_error content c1 e filename target_dir mode w :
  strip_declaration content = Ok c1 ->
  fromstring c1 = inr e ->
  process_downloaded_svg py_float str_float fromstring content filename target_dir mode w
  = (Ok tt, logged ("XML Error in " ++ filename ++ ": " ++ e) w).
Proof.
  intros Hs Hp. unfold process_downloaded_svg, bind, lift.
  rewrite Hs, Hp. reflexivity.
Qed.

Lemma for_each_continues {W A : Type} (body : A -> Py.M W unit) a rest w w' :
  body a w = (Ok tt, w') ->
  for_each body (a :: rest) w = for_each body rest w'.
Proof. intros H. simpl. unfold bind. now rewrite H. Qed.

(** C8: a root without a four-field [viewBox] whose width and height do not
    both parse to positive numbers gets the box (0, 0, 200, 300), and the
    compositor goes on to write the card. *)
Theorem C8_missing_box_falls_back :
  forall root content c1 filename target_dir mode w,
    has_four_field_viewbox root = false ->
    ~ ((0 < parse_unit py_float (get_default root "width" ""))%Q /\
       (0 < parse_unit py_float (get_default root "height" ""))%Q) ->
    strip_declaration content = Ok c1 ->
    fromstring c1 = inl root ->
    get_viewbox py_float root = Ok (0, 0, 200 # 1, 300 # 1)%Q /\
    exists p,
      fit filename mode (0, 0, 200 # 1, 300 # 1)%Q = Ok p /\
      process_downloaded_svg py_float str_float fromstring
        content filename target_dir mode w
      = (Ok tt, saved target_dir filename (composite str_float root p) w).
Proof.
  intros root content c1 filename target_dir mode w Hvb Hsize Hs Hp.
  pose proof (get_viewbox_fallback root Hvb Hsize) as Hbox.
  split; [exact Hbox|].
  destruct (fit_fallback filename mode) as [p Hfit].
  exists p. split; [exact Hfit|].
  now apply process_downloaded_svg_writes with c1 fallback_box.
Qed.

(** C9: the claim is that content that is not well-formed XML is reported and
    skipped, and that the run continues.  Content that opens an XML
    declaration and never closes it makes [content.split('?>', 1)[1]] raise
    [IndexError] inside the [try], which only catches [ET.ParseError]: the
    exception leaves [process_downloaded_svg], and [main] stops at the first
    such download. *)
Theorem C9_unterminated_declaration_escapes :
  forall filename target_dir mode w,
    process_downloaded_svg py_float str_float fromstring
      "<?xml version='1.0' encoding='UTF-8'" filename target_dir mode w
    = (Raise IndexError, w)
    /\ DDL.main py_float str_float fromstring
         (fun _ => inl "<?xml version='1.0' encoding='UTF-8'") w
       = (Raise IndexError,
          logged "Downloading https://upload.wikimedia.org/wikipedia/commons/d/d4/Card_back_01.svg..."
            (logged "Processing DigitalDesignLabs Extras..." w)).
Proof.
  intros. split; reflexivity.
Qed.

End CompositorFacts.

(** C8, witness: a root of width 0. *)
Lemma C8_witness :
  get_viewbox decimal_float bare_svg = Ok (0, 0, 200 # 1, 300 # 1)%Q /\
  exists p,
    fit "1B.svg" "contain" (0, 0, 200 # 1, 300 # 1)%Q = Ok p /\
    process_downloaded_svg decimal_float (fun _ => "0.0") (fun _ => inl bare_svg)
      "<svg width='0' height='12cm'/>" "1B.svg" "digitaldesignlabs/xl" "contain"
      (DDL.mkWorld [] [] [])
    = (Ok tt, saved "digitaldesignlabs/xl" "1B.svg"
                (composite (fun _ => "0.0") bare_svg p) (DDL.mkWorld [] [] [])).
Proof.
  apply (C8_missing_box_falls_back decimal_float (fun _ => "0.0")
           (fun _ => inl bare_svg) bare_svg
           "<svg width='0' height='12cm'/>" "<svg width='0' height='12cm'/>").
  - reflexivity.
  - intros [H _]. vm_compute in H. discriminate H.
  - reflexivity.
  - reflexivity.
Defined.

(** ** The sprite-sheet extractor *)

Section ExtractorFacts.

Variable BASE_DIR : string.
Variable parse : string -> Element + string.

Lemma save_isolated_card_no_defs root filename target_id w :
  find "{http://www.w3.org/2000/svg}defs" root = None ->
  Htdebeer.save_isolated_card BASE_DIR root filename target_id w
  = Htdebeer.print no_defs_message w.
Proof.
  intros H. unfold Htdebeer.save_isolated_card. now rewrite H.
Qed.

Lemma for_each_no_defs root (ts : list (string * string)) :
  find "{http://www.w3.org/2000/svg}defs" root = None ->
  forall w,
    for_each (fun t => Htdebeer.save_isolated_card BASE_DIR root (fst t) (snd t)) ts w
    = (Ok tt,
       Htdebeer.mkWorld (Htdebeer.output_dir_exists w) (Htdebeer.input_file w)
         (Htdebeer.files w)
         (Htdebeer.log w ++ repeat no_defs_message (List.length ts))%list).
Proof.
  intros H. induction ts as [|t ts IH]; intros w.
  - simpl. unfold ret. rewrite app_nil_r. now destruct w.
  - cbn [for_each]. unfold bind at 1.
    rewrite save_isolated_card_no_defs by assumption.
    unfold Htdebeer.print at 1. rewrite IH.
    cbn [Htdebeer.output_dir_exists Htdebeer.input_file Htdebeer.files
         Htdebeer.log List.length repeat].
    now rewrite <- app_assoc.
Qed.

(** C7, amended: when the root of the sprite sheet has no [defs] child, no
    card file is written, and the extraction does not stop: the missing
    [defs] is reported once for each of the 55 targets, and "Done!" is
    printed. *)
Theorem C7_missing_defs_reported_for_every_card :
  forall content root w,
    parse content = inl root ->
    find "{http://www.w3.org/2000/svg}defs" root = None ->
    Htdebeer.extract BASE_DIR parse content w
    = (Ok tt,
       Htdebeer.mkWorld true (Htdebeer.input_file w) (Htdebeer.files w)
         (Htdebeer.log w
          ++ ["Parsing SVG...";
              ("Extracting 55 cards to '" ++ Htdebeer.OUTPUT_DIR BASE_DIR ++ "'...")%string]
          ++ repeat no_defs_message 55
          ++ [String (ascii_of_nat 10) "Done!"])%list).
Proof.
  intros content root w Hparse Hdefs.
  unfold Htdebeer.extract. rewrite Hparse.
  unfold bind at 1. unfold Htdebeer.mkdir_output.
  unfold bind at 1. unfold Htdebeer.print at 1.
  unfold bind at 1. unfold Htdebeer.print at 1.
  unfold bind at 1. rewrite for_each_no_defs by assumption.
  unfold Htdebeer.print.
  cbn [Htdebeer.output_dir_exists Htdebeer.input_file Htdebeer.files Htdebeer.log].
  change (List.length Htdebeer.targets) with 55.
  change (str_of_N (N.of_nat 55)) with "55".
  repeat rewrite <- app_assoc. reflexivity.
Qed.

End ExtractorFacts.

(** C7, witness: a sheet whose root holds the cards directly. *)
Lemma C7_witness :
  Htdebeer.extract "/work" (fun _ => inl sheet_without_defs) "<svg/>"
    (Htdebeer.mkWorld false (Some "<svg/>") [] [])
  = (Ok tt,
     Htdebeer.mkWorld true (Some "<svg/>") []
       (["Parsing SVG..."; "Extracting 55 cards to '/work/htdebeer'..."]
        ++ repeat no_defs_message 55
        ++ [String (ascii_of_nat 10) "Done!"])%list).
Proof.
  apply (C7_missing_defs_reported_for_every_card "/work"
           (fun _ => inl sheet_without_defs) "<svg/>" sheet_without_defs
           (Htdebeer.mkWorld false (Some "<svg/>") [] [])).
  - reflexivity.
  - reflexivity.
Defined.

(** C7, as stated, fails: the run does not stop at the missing [defs].  On a
    sheet without [defs], [main] returns normally with no file written, the
    error printed 55 times and "Done!" as its last line. *)
Lemma C7_counterexample :
  let run :=
    Htdebeer.main "/work" (fun _ => inr "offline") (fun _ => inl sheet_without_defs)
      (Htdebeer.mkWorld false (Some "<svg/>") [] []) in
  fst run = Ok tt /\
  Htdebeer.files (snd run) = [] /\
  count_occ string_dec (Htdebeer.log (snd run)) no_defs_message = 55 /\
  last (Htdebeer.log (snd run)) "" = String (ascii_of_nat 10) "Done!".
Proof. vm_compute. repeat split. Qed.

(** ** The validation utility *)

Section ValidatorFacts.
Import ValidateSvgs.

Variable resolve : string -> string.
Variable is_dir : string -> bool.
Variable subprocess_run : list string -> run_result.

Lemma check_file_failed verbose use_svgcheck failed f :
  fst (check_file subprocess_run verbose use_svgcheck failed f)
  = failed || negb (file_passes subprocess_run verbose use_svgcheck f).
Proof.
  unfold check_file, file_passes.
  destruct (run_command subprocess_run ["xmllint"; "--noout"; f] f verbose)
    as [p1 o1].
  destruct use_svgcheck; cbn [negb orb fst].
  - destruct (run_command subprocess_run _ f verbose) as [p2 o2].
    cbn [fst]. destruct p1, p2, failed; reflexivity.
  - destruct p1, failed; reflexivity.
Qed.

Lemma check_all_failed verbose use_svgcheck svg_files : forall failed,
  fst (check_all subprocess_run verbose use_svgcheck failed svg_files)
  = failed || negb (forallb (file_passes subprocess_run verbose use_svgcheck) svg_files).
Proof.
  induction svg_files as [|f fs IH]; intros failed.
  - simpl. now rewrite orb_false_r.
  - cbn [check_all forallb].
    pose proof (check_file_failed verbose use_svgcheck failed f) as Hf.
    destruct (check_file subprocess_run verbose use_svgcheck failed f) as [failed1 o1].
    specialize (IH failed1).
    destruct (check_all subprocess_run verbose use_svgcheck failed1 fs) as [failed2 o2].
    cbn [fst] in *. subst.
    destruct failed, (file_passes subprocess_run verbose use_svgcheck f),
      (forallb (file_passes subprocess_run verbose use_svgcheck) fs); reflexivity.
Qed.

(** C10: on a directory without SVG files the script prints "No SVG files
    found." and exits with status 0, the status it also exits with when every
    file passes (and only then: with a failing file the status is 1). *)
Theorem C10_no_svg_files_exits_zero :
  forall rglob_svg a,
    is_dir (resolve (directory a)) = true ->
    rglob_svg (resolve (directory a)) = [] ->
    script resolve is_dir rglob_svg subprocess_run a
    = ([Stdout ("Validating SVGs recursively in: " ++ resolve (directory a));
        Stdout "No SVG files found."], 0%Z)
    /\ forall other_files,
         snd (script resolve is_dir (fun _ => other_files) subprocess_run a)
         = if forallb (file_passes subprocess_run (verbose a) (svgcheck a)) other_files
           then 0%Z else 1%Z.
Proof.
  intros rglob_svg a Hdir Hempty. split.
  - unfold script. rewrite Hdir, Hempty. reflexivity.
  - intros files. unfold script. rewrite Hdir. cbn [negb].
    destruct files as [|f fs]; [reflexivity|].
    pose proof (check_all_failed (verbose a) (svgcheck a) (f :: fs) false) as H.
    destruct (check_all subprocess_run (verbose a) (svgcheck a) false (f :: fs))
      as [failed out].
    cbn [fst orb] in H. subst failed.
    destruct (forallb _ (f :: fs)); reflexivity.
Qed.

End ValidatorFacts.

(** C10, witness: an empty directory. *)
Lemma C10_witness :
  ValidateSvgs.script (fun d => d) (fun _ => true) (fun _ => [])
    (fun _ => ValidateSvgs.OtherException)
    (ValidateSvgs.mkArgs "/cards" false false)
  = ([ValidateSvgs.Stdout "Validating SVGs recursively in: /cards";
      ValidateSvgs.Stdout "No SVG files found."], 0%Z).
Proof.
  apply (C10_no_svg_files_exits_zero (fun d => d) (fun _ => true)
           (fun _ => ValidateSvgs.OtherException) (fun _ => [])
           (ValidateSvgs.mkArgs "/cards" false false)); reflexivity.
Defined.
